(** * The cube mosaic of [script.js]: colour resolution and grid layout

    [App3.init] builds a grid of cubes.  For every visited pair of loop
    variables [(row, col)] it creates a fresh material of the base colour,
    runs a long sequence of [if (col === c && row === r)] statements, each of
    which replaces the colour of that material, positions the cube and adds it
    to the scene.  This file embeds that code and proves the properties that
    the specification states about it. *)

From Stdlib Require Import ZArith QArith List Bool Lia.
From Stdlib Require Import Permutation Lqa.
Import ListNotations.
Open Scope Z_scope.

(** ** Colours

    A colour is the 24-bit packed value handed to [new THREE.Color(hex)]. *)

Definition RGB := Z.

(** [App3.MATERIAL_PARAM.color].  The getter returns a fresh object at every
    call and every loop iteration creates a material of its own, so no two
    cubes share a colour cell. *)
Definition MATERIAL_PARAM_color : RGB := 0xffffff.

(** ** The override statements, as written

    The body of the inner loop between the creation of the mesh and the call
    of [position.set], statement for statement: [color] stands for
    [this.box.material.color], and each [let] is one [if] statement. *)

Definition material_color (row col : Z) : Z :=
  let color := MATERIAL_PARAM_color in
  (* 0x000000 *)
  let color := if (col =? 5) && (row =? 1) then 0x000000 else color in
  let color := if (col =? 13) && (row =? 1) then 0x000000 else color in
  let color := if (col =? 4) && (row =? 2) then 0x000000 else color in
  let color := if (col =? 6) && (row =? 2) then 0x000000 else color in
  let color := if (col =? 12) && (row =? 2) then 0x000000 else color in
  let color := if (col =? 14) && (row =? 2) then 0x000000 else color in
  let color := if (col =? 4) && (row =? 3) then 0x000000 else color in
  let color := if (col =? 7) && (row =? 3) then 0x000000 else color in
  let color := if (col =? 12) && (row =? 3) then 0x000000 else color in
  let color := if (col =? 14) && (row =? 3) then 0x000000 else color in
  let color := if (col =? 4) && (row =? 4) then 0x000000 else color in
  let color := if (col =? 7) && (row =? 4) then 0x000000 else color in
  let color := if (col =? 11) && (row =? 4) then 0x000000 else color in
  let color := if (col =? 14) && (row =? 4) then 0x000000 else color in
  let color := if (col =? 4) && (row =? 5) then 0x000000 else color in
  let color := if (col =? 8) && (row =? 5) then 0x000000 else color in
  let color := if (col =? 11) && (row =? 5) then 0x000000 else color in
  let color := if (col =? 15) && (row =? 5) then 0x000000 else color in
  let color := if (col =? 4) && (row =? 6) then 0x000000 else color in
  let color := if (col =? 8) && (row =? 6) then 0x000000 else color in
  let color := if (col =? 10) && (row =? 6) then 0x000000 else color in
  let color := if (col =? 15) && (row =? 6) then 0x000000 else color in
  let color := if (col =? 5) && (row =? 7) then 0x000000 else color in
  let color := if (col =? 9) && (row =? 7) then 0x000000 else color in
  let color := if (col =? 15) && (row =? 7) then 0x000000 else color in
  let color := if (col =? 5) && (row =? 8) then 0x000000 else color in
  let color := if (col =? 15) && (row =? 8) then 0x000000 else color in
  let color := if (col =? 6) && (row =? 9) then 0x000000 else color in
  let color := if (col =? 16) && (row =? 9) then 0x000000 else color in
  let color := if (col =? 5) && (row =? 10) then 0x000000 else color in
  let color := if (col =? 17) && (row =? 10) then 0x000000 else color in
  let color := if (col =? 4) && (row =? 11) then 0x000000 else color in
  let color := if (col =? 18) && (row =? 11) then 0x000000 else color in
  let color := if (col =? 4) && (row =? 12) then 0x000000 else color in
  let color := if (col =? 19) && (row =? 12) then 0x000000 else color in
  let color := if (col =? 4) && (row =? 13) then 0x000000 else color in
  let color := if (col =? 20) && (row =? 13) then 0x000000 else color in
  let color := if (col =? 5) && (row =? 14) then 0x000000 else color in
  let color := if (col =? 10) && (row =? 14) then 0x000000 else color in
  let color := if (col =? 21) && (row =? 14) then 0x000000 else color in
  let color := if (col =? 5) && (row =? 15) then 0x000000 else color in
  let color := if (col =? 21) && (row =? 15) then 0x000000 else color in
  let color := if (col =? 4) && (row =? 16) then 0x000000 else color in
  let color := if (col =? 15) && (row =? 16) then 0x000000 else color in
  let color := if (col =? 22) && (row =? 16) then 0x000000 else color in
  let color := if (col =? 4) && (row =? 17) then 0x000000 else color in
  let color := if (col =? 14) && (row =? 17) then 0x000000 else color in
  let color := if (col =? 16) && (row =? 17) then 0x000000 else color in
  let color := if (col =? 22) && (row =? 17) then 0x000000 else color in
  let color := if (col =? 5) && (row =? 18) then 0x000000 else color in
  let color := if (col =? 6) && (row =? 18) then 0x000000 else color in
  let color := if (col =? 7) && (row =? 18) then 0x000000 else color in
  let color := if (col =? 13) && (row =? 18) then 0x000000 else color in
  let color := if (col =? 16) && (row =? 18) then 0x000000 else color in
  let color := if (col =? 19) && (row =? 18) then 0x000000 else color in
  let color := if (col =? 22) && (row =? 18) then 0x000000 else color in
  let color := if (col =? 8) && (row =? 19) then 0x000000 else color in
  let color := if (col =? 14) && (row =? 19) then 0x000000 else color in
  let color := if (col =? 17) && (row =? 19) then 0x000000 else color in
  let color := if (col =? 18) && (row =? 19) then 0x000000 else color in
  let color := if (col =? 20) && (row =? 19) then 0x000000 else color in
  let color := if (col =? 21) && (row =? 19) then 0x000000 else color in
  (* 0x69889d *)
  let color := if (col =? 5) && (row =? 2) then 0x69889d else color in
  let color := if (col =? 5) && (row =? 3) then 0x69889d else color in
  let color := if (col =? 6) && (row =? 3) then 0x69889d else color in
  let color := if (col =? 5) && (row =? 4) then 0x69889d else color in
  let color := if (col =? 6) && (row =? 4) then 0x69889d else color in
  let color := if (col =? 6) && (row =? 5) then 0x69889d else color in
  let color := if (col =? 7) && (row =? 5) then 0x69889d else color in
  let color := if (col =? 7) && (row =? 6) then 0x69889d else color in
  let color := if (col =? 7) && (row =? 7) then 0x69889d else color in
  let color := if (col =? 8) && (row =? 7) then 0x69889d else color in
  let color := if (col =? 15) && (row =? 10) then 0x69889d else color in
  let color := if (col =? 10) && (row =? 13) then 0x69889d else color in
  let color := if (col =? 16) && (row =? 16) then 0x69889d else color in
  let color := if (col =? 11) && (row =? 18) then 0x69889d else color in
  (* 0x6eb2dd *)
  let color := if (col =? 13) && (row =? 2) then 0x6eb2dd else color in
  let color := if (col =? 13) && (row =? 3) then 0x6eb2dd else color in
  let color := if (col =? 12) && (row =? 4) then 0x6eb2dd else color in
  let color := if (col =? 13) && (row =? 4) then 0x6eb2dd else color in
  let color := if (col =? 12) && (row =? 5) then 0x6eb2dd else color in
  let color := if (col =? 13) && (row =? 5) then 0x6eb2dd else color in
  let color := if (col =? 14) && (row =? 5) then 0x6eb2dd else color in
  let color := if (col =? 11) && (row =? 6) then 0x6eb2dd else color in
  let color := if (col =? 13) && (row =? 6) then 0x6eb2dd else color in
  let color := if (col =? 14) && (row =? 6) then 0x6eb2dd else color in
  let color := if (col =? 11) && (row =? 7) then 0x6eb2dd else color in
  let color := if (col =? 14) && (row =? 7) then 0x6eb2dd else color in
  let color := if (col =? 11) && (row =? 8) then 0x6eb2dd else color in
  let color := if (col =? 14) && (row =? 8) then 0x6eb2dd else color in
  let color := if (col =? 7) && (row =? 9) then 0x6eb2dd else color in
  let color := if (col =? 10) && (row =? 9) then 0x6eb2dd else color in
  let color := if (col =? 14) && (row =? 9) then 0x6eb2dd else color in
  let color := if (col =? 15) && (row =? 9) then 0x6eb2dd else color in
  let color := if (col =? 6) && (row =? 10) then 0x6eb2dd else color in
  let color := if (col =? 10) && (row =? 10) then 0x6eb2dd else color in
  let color := if (col =? 11) && (row =? 10) then 0x6eb2dd else color in
  let color := if (col =? 12) && (row =? 10) then 0x6eb2dd else color in
  let color := if (col =? 14) && (row =? 10) then 0x6eb2dd else color in
  let color := if (col =? 5) && (row =? 11) then 0x6eb2dd else color in
  let color := if (col =? 6) && (row =? 11) then 0x6eb2dd else color in
  let color := if (col =? 9) && (row =? 11) then 0x6eb2dd else color in
  let color := if (col =? 10) && (row =? 11) then 0x6eb2dd else color in
  let color := if (col =? 11) && (row =? 11) then 0x6eb2dd else color in
  let color := if (col =? 12) && (row =? 11) then 0x6eb2dd else color in
  let color := if (col =? 13) && (row =? 11) then 0x6eb2dd else color in
  let color := if (col =? 5) && (row =? 12) then 0x6eb2dd else color in
  let color := if (col =? 6) && (row =? 12) then 0x6eb2dd else color in
  let color := if (col =? 9) && (row =? 12) then 0x6eb2dd else color in
  let color := if (col =? 10) && (row =? 12) then 0x6eb2dd else color in
  let color := if (col =? 11) && (row =? 12) then 0x6eb2dd else color in
  let color := if (col =? 6) && (row =? 13) then 0x6eb2dd else color in
  let color := if (col =? 9) && (row =? 13) then 0x6eb2dd else color in
  let color := if (col =? 15) && (row =? 15) then 0x6eb2dd else color in
  let color := if (col =? 13) && (row =? 16) then 0x6eb2dd else color in
  let color := if (col =? 14) && (row =? 16) then 0x6eb2dd else color in
  let color := if (col =? 9) && (row =? 17) then 0x6eb2dd else color in
  let color := if (col =? 10) && (row =? 17) then 0x6eb2dd else color in
  let color := if (col =? 11) && (row =? 17) then 0x6eb2dd else color in
  let color := if (col =? 12) && (row =? 17) then 0x6eb2dd else color in
  let color := if (col =? 8) && (row =? 18) then 0x6eb2dd else color in
  let color := if (col =? 9) && (row =? 18) then 0x6eb2dd else color in
  let color := if (col =? 10) && (row =? 18) then 0x6eb2dd else color in
  (* 0x424040 *)
  let color := if (col =? 5) && (row =? 5) then 0x424040 else color in
  let color := if (col =? 5) && (row =? 6) then 0x424040 else color in
  let color := if (col =? 6) && (row =? 6) then 0x424040 else color in
  let color := if (col =? 12) && (row =? 6) then 0x424040 else color in
  let color := if (col =? 6) && (row =? 7) then 0x424040 else color in
  let color := if (col =? 10) && (row =? 7) then 0x424040 else color in
  let color := if (col =? 12) && (row =? 7) then 0x424040 else color in
  let color := if (col =? 6) && (row =? 8) then 0x424040 else color in
  let color := if (col =? 7) && (row =? 8) then 0x424040 else color in
  let color := if (col =? 8) && (row =? 8) then 0x424040 else color in
  let color := if (col =? 12) && (row =? 8) then 0x424040 else color in
  let color := if (col =? 13) && (row =? 8) then 0x424040 else color in
  let color := if (col =? 11) && (row =? 9) then 0x424040 else color in
  let color := if (col =? 13) && (row =? 9) then 0x424040 else color in
  let color := if (col =? 13) && (row =? 10) then 0x424040 else color in
  let color := if (col =? 16) && (row =? 10) then 0x424040 else color in
  let color := if (col =? 16) && (row =? 11) then 0x424040 else color in
  let color := if (col =? 12) && (row =? 12) then 0x424040 else color in
  let color := if (col =? 13) && (row =? 12) then 0x424040 else color in
  let color := if (col =? 17) && (row =? 12) then 0x424040 else color in
  let color := if (col =? 11) && (row =? 13) then 0x424040 else color in
  let color := if (col =? 17) && (row =? 13) then 0x424040 else color in
  let color := if (col =? 17) && (row =? 14) then 0x424040 else color in
  let color := if (col =? 6) && (row =? 15) then 0x424040 else color in
  let color := if (col =? 16) && (row =? 15) then 0x424040 else color in
  let color := if (col =? 18) && (row =? 15) then 0x424040 else color in
  let color := if (col =? 18) && (row =? 16) then 0x424040 else color in
  let color := if (col =? 5) && (row =? 17) then 0x424040 else color in
  let color := if (col =? 13) && (row =? 17) then 0x424040 else color in
  let color := if (col =? 18) && (row =? 17) then 0x424040 else color in
  let color := if (col =? 12) && (row =? 18) then 0x424040 else color in
  let color := if (col =? 9) && (row =? 19) then 0x424040 else color in
  let color := if (col =? 10) && (row =? 19) then 0x424040 else color in
  let color := if (col =? 13) && (row =? 19) then 0x424040 else color in
  (* 0x5c6060 *)
  let color := if (col =? 13) && (row =? 7) then 0x5c6060 else color in
  let color := if (col =? 9) && (row =? 8) then 0x5c6060 else color in
  let color := if (col =? 10) && (row =? 8) then 0x5c6060 else color in
  let color := if (col =? 8) && (row =? 9) then 0x5c6060 else color in
  let color := if (col =? 9) && (row =? 9) then 0x5c6060 else color in
  let color := if (col =? 12) && (row =? 9) then 0x5c6060 else color in
  let color := if (col =? 7) && (row =? 10) then 0x5c6060 else color in
  let color := if (col =? 8) && (row =? 10) then 0x5c6060 else color in
  let color := if (col =? 9) && (row =? 10) then 0x5c6060 else color in
  let color := if (col =? 7) && (row =? 11) then 0x5c6060 else color in
  let color := if (col =? 8) && (row =? 11) then 0x5c6060 else color in
  let color := if (col =? 14) && (row =? 11) then 0x5c6060 else color in
  let color := if (col =? 15) && (row =? 11) then 0x5c6060 else color in
  let color := if (col =? 17) && (row =? 11) then 0x5c6060 else color in
  let color := if (col =? 7) && (row =? 12) then 0x5c6060 else color in
  let color := if (col =? 8) && (row =? 12) then 0x5c6060 else color in
  let color := if (col =? 14) && (row =? 12) then 0x5c6060 else color in
  let color := if (col =? 15) && (row =? 12) then 0x5c6060 else color in
  let color := if (col =? 16) && (row =? 12) then 0x5c6060 else color in
  let color := if (col =? 18) && (row =? 12) then 0x5c6060 else color in
  let color := if (col =? 5) && (row =? 13) then 0x5c6060 else color in
  let color := if (col =? 7) && (row =? 13) then 0x5c6060 else color in
  let color := if (col =? 8) && (row =? 13) then 0x5c6060 else color in
  let color := if (col =? 13) && (row =? 13) then 0x5c6060 else color in
  let color := if (col =? 14) && (row =? 13) then 0x5c6060 else color in
  let color := if (col =? 15) && (row =? 13) then 0x5c6060 else color in
  let color := if (col =? 16) && (row =? 13) then 0x5c6060 else color in
  let color := if (col =? 18) && (row =? 13) then 0x5c6060 else color in
  let color := if (col =? 19) && (row =? 13) then 0x5c6060 else color in
  let color := if (col =? 6) && (row =? 14) then 0x5c6060 else color in
  let color := if (col =? 7) && (row =? 14) then 0x5c6060 else color in
  let color := if (col =? 8) && (row =? 14) then 0x5c6060 else color in
  let color := if (col =? 9) && (row =? 14) then 0x5c6060 else color in
  let color := if (col =? 13) && (row =? 14) then 0x5c6060 else color in
  let color := if (col =? 14) && (row =? 14) then 0x5c6060 else color in
  let color := if (col =? 15) && (row =? 14) then 0x5c6060 else color in
  let color := if (col =? 16) && (row =? 14) then 0x5c6060 else color in
  let color := if (col =? 18) && (row =? 14) then 0x5c6060 else color in
  let color := if (col =? 19) && (row =? 14) then 0x5c6060 else color in
  let color := if (col =? 20) && (row =? 14) then 0x5c6060 else color in
  let color := if (col =? 7) && (row =? 15) then 0x5c6060 else color in
  let color := if (col =? 8) && (row =? 15) then 0x5c6060 else color in
  let color := if (col =? 9) && (row =? 15) then 0x5c6060 else color in
  let color := if (col =? 12) && (row =? 15) then 0x5c6060 else color in
  let color := if (col =? 13) && (row =? 15) then 0x5c6060 else color in
  let color := if (col =? 14) && (row =? 15) then 0x5c6060 else color in
  let color := if (col =? 17) && (row =? 15) then 0x5c6060 else color in
  let color := if (col =? 19) && (row =? 15) then 0x5c6060 else color in
  let color := if (col =? 20) && (row =? 15) then 0x5c6060 else color in
  let color := if (col =? 5) && (row =? 16) then 0x5c6060 else color in
  let color := if (col =? 6) && (row =? 16) then 0x5c6060 else color in
  let color := if (col =? 7) && (row =? 16) then 0x5c6060 else color in
  let color := if (col =? 8) && (row =? 16) then 0x5c6060 else color in
  let color := if (col =? 9) && (row =? 16) then 0x5c6060 else color in
  let color := if (col =? 10) && (row =? 16) then 0x5c6060 else color in
  let color := if (col =? 11) && (row =? 16) then 0x5c6060 else color in
  let color := if (col =? 12) && (row =? 16) then 0x5c6060 else color in
  let color := if (col =? 17) && (row =? 16) then 0x5c6060 else color in
  let color := if (col =? 19) && (row =? 16) then 0x5c6060 else color in
  let color := if (col =? 20) && (row =? 16) then 0x5c6060 else color in
  let color := if (col =? 21) && (row =? 16) then 0x5c6060 else color in
  let color := if (col =? 6) && (row =? 17) then 0x5c6060 else color in
  let color := if (col =? 7) && (row =? 17) then 0x5c6060 else color in
  let color := if (col =? 8) && (row =? 17) then 0x5c6060 else color in
  let color := if (col =? 17) && (row =? 17) then 0x5c6060 else color in
  let color := if (col =? 19) && (row =? 17) then 0x5c6060 else color in
  let color := if (col =? 20) && (row =? 17) then 0x5c6060 else color in
  let color := if (col =? 21) && (row =? 17) then 0x5c6060 else color in
  let color := if (col =? 17) && (row =? 18) then 0x5c6060 else color in
  let color := if (col =? 18) && (row =? 18) then 0x5c6060 else color in
  let color := if (col =? 20) && (row =? 18) then 0x5c6060 else color in
  let color := if (col =? 21) && (row =? 18) then 0x5c6060 else color in
  let color := if (col =? 11) && (row =? 19) then 0x5c6060 else color in
  let color := if (col =? 12) && (row =? 19) then 0x5c6060 else color in
  (* 0xffffff *)
  let color := if (col =? 12) && (row =? 13) then 0xffffff else color in
  let color := if (col =? 12) && (row =? 14) then 0xffffff else color in
  (* 0xff5552 *)
  let color := if (col =? 11) && (row =? 14) then 0xff5552 else color in
  let color := if (col =? 10) && (row =? 15) then 0xff5552 else color in
  let color := if (col =? 11) && (row =? 15) then 0xff5552 else color in
  color.

(** ** The override statements, as a table

    One [Override] per [if] statement, in the order of the source, under the
    seven comment headings of the source ([// 0x000000], [// 0x69889d], ...).
    [ov c r k] reads [if (col === c && row === r) color = k]. *)

Record Override : Type := ov { ov_col : Z; ov_row : Z; ov_color : RGB }.

Definition group_000000 : list Override :=
  [
    ov 5 1 0x000000; ov 13 1 0x000000; ov 4 2 0x000000; ov 6 2 0x000000;
    ov 12 2 0x000000; ov 14 2 0x000000; ov 4 3 0x000000; ov 7 3 0x000000;
    ov 12 3 0x000000; ov 14 3 0x000000; ov 4 4 0x000000; ov 7 4 0x000000;
    ov 11 4 0x000000; ov 14 4 0x000000; ov 4 5 0x000000; ov 8 5 0x000000;
    ov 11 5 0x000000; ov 15 5 0x000000; ov 4 6 0x000000; ov 8 6 0x000000;
    ov 10 6 0x000000; ov 15 6 0x000000; ov 5 7 0x000000; ov 9 7 0x000000;
    ov 15 7 0x000000; ov 5 8 0x000000; ov 15 8 0x000000; ov 6 9 0x000000;
    ov 16 9 0x000000; ov 5 10 0x000000; ov 17 10 0x000000; ov 4 11 0x000000;
    ov 18 11 0x000000; ov 4 12 0x000000; ov 19 12 0x000000; ov 4 13 0x000000;
    ov 20 13 0x000000; ov 5 14 0x000000; ov 10 14 0x000000; ov 21 14 0x000000;
    ov 5 15 0x000000; ov 21 15 0x000000; ov 4 16 0x000000; ov 15 16 0x000000;
    ov 22 16 0x000000; ov 4 17 0x000000; ov 14 17 0x000000; ov 16 17 0x000000;
    ov 22 17 0x000000; ov 5 18 0x000000; ov 6 18 0x000000; ov 7 18 0x000000;
    ov 13 18 0x000000; ov 16 18 0x000000; ov 19 18 0x000000; ov 22 18 0x000000;
    ov 8 19 0x000000; ov 14 19 0x000000; ov 17 19 0x000000; ov 18 19 0x000000;
    ov 20 19 0x000000; ov 21 19 0x000000 ].

Definition group_69889d : list Override :=
  [
    ov 5 2 0x69889d; ov 5 3 0x69889d; ov 6 3 0x69889d; ov 5 4 0x69889d;
    ov 6 4 0x69889d; ov 6 5 0x69889d; ov 7 5 0x69889d; ov 7 6 0x69889d;
    ov 7 7 0x69889d; ov 8 7 0x69889d; ov 15 10 0x69889d; ov 10 13 0x69889d;
    ov 16 16 0x69889d; ov 11 18 0x69889d ].

Definition group_6eb2dd : list Override :=
  [
    ov 13 2 0x6eb2dd; ov 13 3 0x6eb2dd; ov 12 4 0x6eb2dd; ov 13 4 0x6eb2dd;
    ov 12 5 0x6eb2dd; ov 13 5 0x6eb2dd; ov 14 5 0x6eb2dd; ov 11 6 0x6eb2dd;
    ov 13 6 0x6eb2dd; ov 14 6 0x6eb2dd; ov 11 7 0x6eb2dd; ov 14 7 0x6eb2dd;
    ov 11 8 0x6eb2dd; ov 14 8 0x6eb2dd; ov 7 9 0x6eb2dd; ov 10 9 0x6eb2dd;
    ov 14 9 0x6eb2dd; ov 15 9 0x6eb2dd; ov 6 10 0x6eb2dd; ov 10 10 0x6eb2dd;
    ov 11 10 0x6eb2dd; ov 12 10 0x6eb2dd; ov 14 10 0x6eb2dd; ov 5 11 0x6eb2dd;
    ov 6 11 0x6eb2dd; ov 9 11 0x6eb2dd; ov 10 11 0x6eb2dd; ov 11 11 0x6eb2dd;
    ov 12 11 0x6eb2dd; ov 13 11 0x6eb2dd; ov 5 12 0x6eb2dd; ov 6 12 0x6eb2dd;
    ov 9 12 0x6eb2dd; ov 10 12 0x6eb2dd; ov 11 12 0x6eb2dd; ov 6 13 0x6eb2dd;
    ov 9 13 0x6eb2dd; ov 15 15 0x6eb2dd; ov 13 16 0x6eb2dd; ov 14 16 0x6eb2dd;
    ov 9 17 0x6eb2dd; ov 10 17 0x6eb2dd; ov 11 17 0x6eb2dd; ov 12 17 0x6eb2dd;
    ov 8 18 0x6eb2dd; ov 9 18 0x6eb2dd; ov 10 18 0x6eb2dd ].

Definition group_424040 : list Override :=
  [
    ov 5 5 0x424040; ov 5 6 0x424040; ov 6 6 0x424040; ov 12 6 0x424040;
    ov 6 7 0x424040; ov 10 7 0x424040; ov 12 7 0x424040; ov 6 8 0x424040;
    ov 7 8 0x424040; ov 8 8 0x424040; ov 12 8 0x424040; ov 13 8 0x424040;
    ov 11 9 0x424040; ov 13 9 0x424040; ov 13 10 0x424040; ov 16 10 0x424040;
    ov 16 11 0x424040; ov 12 12 0x424040; ov 13 12 0x424040; ov 17 12 0x424040;
    ov 11 13 0x424040; ov 17 13 0x424040; ov 17 14 0x424040; ov 6 15 0x424040;
    ov 16 15 0x424040; ov 18 15 0x424040; ov 18 16 0x424040; ov 5 17 0x424040;
    ov 13 17 0x424040; ov 18 17 0x424040; ov 12 18 0x424040; ov 9 19 0x424040;
    ov 10 19 0x424040; ov 13 19 0x424040 ].

Definition group_5c6060 : list Override :=
  [
    ov 13 7 0x5c6060; ov 9 8 0x5c6060; ov 10 8 0x5c6060; ov 8 9 0x5c6060;
    ov 9 9 0x5c6060; ov 12 9 0x5c6060; ov 7 10 0x5c6060; ov 8 10 0x5c6060;
    ov 9 10 0x5c6060; ov 7 11 0x5c6060; ov 8 11 0x5c6060; ov 14 11 0x5c6060;
    ov 15 11 0x5c6060; ov 17 11 0x5c6060; ov 7 12 0x5c6060; ov 8 12 0x5c6060;
    ov 14 12 0x5c6060; ov 15 12 0x5c6060; ov 16 12 0x5c6060; ov 18 12 0x5c6060;
    ov 5 13 0x5c6060; ov 7 13 0x5c6060; ov 8 13 0x5c6060; ov 13 13 0x5c6060;
    ov 14 13 0x5c6060; ov 15 13 0x5c6060; ov 16 13 0x5c6060; ov 18 13 0x5c6060;
    ov 19 13 0x5c6060; ov 6 14 0x5c6060; ov 7 14 0x5c6060; ov 8 14 0x5c6060;
    ov 9 14 0x5c6060; ov 13 14 0x5c6060; ov 14 14 0x5c6060; ov 15 14 0x5c6060;
    ov 16 14 0x5c6060; ov 18 14 0x5c6060; ov 19 14 0x5c6060; ov 20 14 0x5c6060;
    ov 7 15 0x5c6060; ov 8 15 0x5c6060; ov 9 15 0x5c6060; ov 12 15 0x5c6060;
    ov 13 15 0x5c6060; ov 14 15 0x5c6060; ov 17 15 0x5c6060; ov 19 15 0x5c6060;
    ov 20 15 0x5c6060; ov 5 16 0x5c6060; ov 6 16 0x5c6060; ov 7 16 0x5c6060;
    ov 8 16 0x5c6060; ov 9 16 0x5c6060; ov 10 16 0x5c6060; ov 11 16 0x5c6060;
    ov 12 16 0x5c6060; ov 17 16 0x5c6060; ov 19 16 0x5c6060; ov 20 16 0x5c6060;
    ov 21 16 0x5c6060; ov 6 17 0x5c6060; ov 7 17 0x5c6060; ov 8 17 0x5c6060;
    ov 17 17 0x5c6060; ov 19 17 0x5c6060; ov 20 17 0x5c6060; ov 21 17 0x5c6060;
    ov 17 18 0x5c6060; ov 18 18 0x5c6060; ov 20 18 0x5c6060; ov 21 18 0x5c6060;
    ov 11 19 0x5c6060; ov 12 19 0x5c6060 ].

Definition group_ffffff : list Override :=
  [
    ov 12 13 0xffffff; ov 12 14 0xffffff ].

Definition group_ff5552 : list Override :=
  [
    ov 11 14 0xff5552; ov 10 15 0xff5552; ov 11 15 0xff5552 ].
(** The palette groups: the heading of each block of the source and the
    statements below it. *)
Definition paletteGroups : list (RGB * list Override) :=
  [ (0x000000, group_000000); (0x69889d, group_69889d);
    (0x6eb2dd, group_6eb2dd); (0x424040, group_424040);
    (0x5c6060, group_5c6060); (0xffffff, group_ffffff);
    (0xff5552, group_ff5552) ].

Definition overrideTable : list Override :=
  flat_map snd paletteGroups.

(** The test [col === c && row === r] of one statement. *)
Definition targets (row col : Z) (e : Override) : bool :=
  (col =? ov_col e) && (row =? ov_row e).

(** One [if] statement acting on the working colour. *)
Definition applyOverride (row col : Z) (color : RGB) (e : Override) : RGB :=
  if targets row col e then ov_color e else color.

(** The statements of a table run in sequence on a working colour that
    starts at [base]. *)
Definition resolveWith (table : list Override) (base : RGB)
    (row col : Z) : RGB :=
  fold_left (applyOverride row col) table base.

Definition resolveColor (row col : Z) : RGB :=
  resolveWith overrideTable MATERIAL_PARAM_color row col.

(** The statements of the source that fire for a coordinate, and the
    palette groups that hold such a statement. *)
Definition entriesTargeting (row col : Z) : list Override :=
  filter (targets row col) overrideTable.

Definition groupsTargeting (row col : Z) : list (RGB * list Override) :=
  filter (fun g => existsb (targets row col) (snd g)) paletteGroups.

(** The base colour and the colours named by the palette groups that differ
    from it. *)
Definition cubeColors : list RGB :=
  [ 0xffffff; 0x000000; 0x69889d; 0x6eb2dd; 0x424040; 0x5c6060; 0xff5552 ].

(** ** Scene objects

    Coordinates are JavaScript numbers.  Every value the grid code computes
    with the constants of the source is a small multiple of one half, which
    binary floating point represents exactly, so positions are modelled as
    rationals.  For other constants the rationals are the values before any
    rounding. *)

Record Vector3 : Type := vec3 { vx : Q; vy : Q; vz : Q }.

Record Mesh : Type := mkMesh { mesh_color : RGB; mesh_position : Vector3 }.

Inductive Object3D : Type :=
| DirectionalLight (color : RGB) (intensity : Q) (position : Vector3)
| AmbientLight (color : RGB) (intensity : Q)
| Box (m : Mesh).

(** A scene is the list of its children, in the order they were added. *)
Definition Scene := list Object3D.

Definition scene_add (o : Object3D) (s : Scene) : Scene := s ++ [o].

(** The cubes of a scene, in order. *)
Definition scene_meshes (s : Scene) : list Mesh :=
  flat_map (fun o => match o with Box m => [m] | _ => [] end) s.

(** ** Loops

    [for (let i = lo; i < hi; i++) body] on a state [St].  The loop tests
    [i < hi] before each iteration; [for_loop] gives it the number of
    iterations it needs. *)

Fixpoint for_fuel {St : Type} (fuel : nat) (i hi : Z)
    (body : Z -> St -> St) (s : St) : St :=
  match fuel with
  | O => s
  | S fuel' =>
      if i <? hi then for_fuel fuel' (i + 1) hi body (body i s) else s
  end.

Definition for_loop {St : Type} (lo hi : Z) (body : Z -> St -> St)
    (s : St) : St :=
  for_fuel (Z.to_nat (hi - lo)) lo hi body s.

(** The values the loop variable takes. *)
Definition range (lo hi : Z) : list Z :=
  map (fun k => lo + Z.of_nat k) (seq 0 (Z.to_nat (hi - lo))).

(** ** The grid

    The three constants of [init] are parameters here; the source fixes them
    to [BOX_ROW = 25], [BOX_COL = 20] and [BOX_SIZE = 1.0].  Note that the
    outer loop variable [row] is bounded by [BOX_COL] and the inner one,
    [col], by [BOX_ROW]. *)

Section Grid.
Variables BOX_ROW BOX_COL : Z.
Variable BOX_SIZE : Q.

Definition gridWidth : Q := inject_Z BOX_ROW * BOX_SIZE.
Definition gridHeight : Q := inject_Z BOX_COL * BOX_SIZE.
Definition offsetX : Q := - gridWidth / 2.
Definition offsetY : Q := - gridHeight / 2.

(** The body of the inner loop up to [position.set]: the mesh that is
    added to the scene for the loop variables [row] and [col]. *)
Definition make_box (row col : Z) : Mesh :=
  {| mesh_color := material_color row col;
     mesh_position :=
       vec3 (inject_Z col * BOX_SIZE + offsetX)
            (- inject_Z row * BOX_SIZE - offsetY)
            0 |}.

(** The two nested loops, threading the scene. *)
Definition buildGrid (scene : Scene) : Scene :=
  for_loop 1 BOX_COL
    (fun row s =>
       for_loop 1 BOX_ROW
         (fun col s => scene_add (Box (make_box row col)) s) s)
    scene.

(** The pairs [(row, col)] of loop variables, in the order visited. *)
Definition visited : list (Z * Z) :=
  flat_map (fun row => map (fun col => (row, col)) (range 1 BOX_ROW))
           (range 1 BOX_COL).

Definition grid_cells : list Mesh :=
  map (fun rc => make_box (fst rc) (snd rc)) visited.
End Grid.

(** The offsets as the specification words them, for [COLS] columns,
    [ROWS] rows and cubes of size [S]; to be compared with [offsetX] and
    [offsetY] above. *)
Definition spec_offsetX (COLS : Z) (S : Q) : Q :=
  (- (inject_Z (COLS - 1) * S) / 2)%Q.

Definition spec_offsetY (ROWS : Z) (S : Q) : Q :=
  (- (inject_Z (ROWS - 1) * S) / 2)%Q.

(** Sum and mean of a list of rationals; an empty list has no mean. *)
Definition Qsum (l : list Q) : Q := fold_right Qplus 0%Q l.

Definition Qmean (l : list Q) : option Q :=
  match l with
  | [] => None
  | _ :: _ => Some (Qsum l / inject_Z (Z.of_nat (length l)))%Q
  end.

(** ** The application object

    The quotient [window.innerWidth / window.innerHeight] is a floating-point
    division; the type of its results and the operation are parameters. *)

Record Window : Type := mkWindow { innerWidth : Z; innerHeight : Z }.

Section Host.
Variable Number : Type.
Variable num_div : Z -> Z -> Number.

Record Renderer : Type :=
  mkRenderer { clearColor : RGB; renderer_size : Z * Z }.

Record Camera : Type :=
  mkCamera { fovy : Q; aspect : Number; near : Q; far : Q;
             camera_position : Vector3; lookAt : Vector3;
             projection_aspect : Number }.

Record App3 : Type :=
  mkApp3 { renderer : Renderer; camera : Camera; scene : Scene }.

(** Modelled from the spec: [renderer.setSize] of the rendering library
    (not part of the sources at hand); the rendering surface
    "exposes resize(width, height)" and afterwards "reports the new
    dimensions". *)
Definition setSize (width height : Z) (r : Renderer) : Renderer :=
  {| clearColor := clearColor r; renderer_size := (width, height) |}.

(** Modelled from the spec: [camera.updateProjectionMatrix] of the
    rendering library (not part of the sources at hand); it recomputes the
    projection from the camera's own parameters, here the aspect ratio the
    projection was last computed from. *)
Definition updateProjectionMatrix (c : Camera) : Camera :=
  {| fovy := fovy c; aspect := aspect c; near := near c; far := far c;
     camera_position := camera_position c; lookAt := lookAt c;
     projection_aspect := aspect c |}.

(** The assignment [camera.aspect = a]. *)
Definition set_aspect (a : Number) (c : Camera) : Camera :=
  {| fovy := fovy c; aspect := a; near := near c; far := far c;
     camera_position := camera_position c; lookAt := lookAt c;
     projection_aspect := projection_aspect c |}.

(** [App3.init], for the window as it is when [init] runs. *)
Definition init (w : Window) : App3 :=
  let renderer :=
    setSize (innerWidth w) (innerHeight w)
      {| clearColor := 0x666666; renderer_size := (0, 0) |} in
  let scene : Scene := [] in
  let a := num_div (innerWidth w) (innerHeight w) in
  let camera :=
    {| fovy := 60; aspect := a; near := 1 # 10; far := 400;
       camera_position := vec3 0 0 25; lookAt := vec3 0 0 0;
       projection_aspect := a |} in
  let scene :=
    scene_add (DirectionalLight 0xffffff 1 (vec3 1 1 1)) scene in
  let scene := scene_add (AmbientLight 0xffffff (2 # 10)) scene in
  let scene := buildGrid 25 20 1 scene in
  {| renderer := renderer; camera := camera; scene := scene |}.

(** The listener of the [resize] event registered by the constructor, for
    the window as it is when the event fires. *)
Definition onResize (w : Window) (app : App3) : App3 :=
  let renderer := setSize (innerWidth w) (innerHeight w) (renderer app) in
  let camera :=
    set_aspect (num_div (innerWidth w) (innerHeight w)) (camera app) in
  let camera := updateProjectionMatrix camera in
  {| renderer := renderer; camera := camera; scene := scene app |}.
End Host.

Arguments mkCamera {Number}.
Arguments mkApp3 {Number}.
Arguments fovy {Number} c.
Arguments aspect {Number} c.
Arguments near {Number} c.
Arguments far {Number} c.
Arguments camera_position {Number} c.
Arguments lookAt {Number} c.
Arguments projection_aspect {Number} c.
Arguments renderer {Number} a.
Arguments camera {Number} a.
Arguments scene {Number} a.
Arguments updateProjectionMatrix {Number} c.
Arguments set_aspect {Number} a c.
Arguments init {Number} num_div w.
Arguments onResize {Number} num_div w app.

(** ** The running application

    [render] asks the host for the next animation frame, lets the orbit
    controls move the camera and draws the scene.  The listener of
    [DOMContentLoaded] creates the application, calls [init] and calls
    [render] once; after that the host delivers animation frames and resize
    events. *)

Section Runtime.
Variable Number : Type.
Variable num_div : Z -> Z -> Number.

(** Modelled from the spec: [OrbitControls.update] of the controls library
    (not part of the sources at hand), "apply accumulated input/damping to
    camera transform".  The controls are constructed from the camera and the
    canvas only, so the camera is all they can reach; what they do to it is
    a parameter. *)
Variable controls_update : Camera Number -> Camera Number.

(** One call of [renderer.render(scene, camera)]: what was drawn, and the
    size of the renderer at that moment. *)
Record Frame : Type :=
  mkFrame { frame_scene : Scene; frame_camera : Camera Number;
            frame_size : Z * Z }.

(** The application together with the host's list of animation-frame
    callbacks (all of them are [this.render], so their number is kept) and
    the frames drawn so far. *)
Record Running : Type :=
  mkRunning { app : App3 Number; pending : nat; drawn : list Frame }.

(** [App3.render]. *)
Definition render (st : Running) : Running :=
  let pending := S (pending st) in
  let camera := controls_update (camera (app st)) in
  let app' :=
    {| renderer := renderer (app st); camera := camera;
       scene := scene (app st) |} in
  let frame :=
    {| frame_scene := scene app'; frame_camera := camera;
       frame_size := renderer_size (renderer app') |} in
  {| app := app'; pending := pending; drawn := drawn st ++ [frame] |}.

(** The listener of [DOMContentLoaded]. *)
Definition startup (w : Window) : Running :=
  let app := init num_div w in
  render {| app := app; pending := 0; drawn := [] |}.

Inductive Event : Type :=
| AnimationFrame
| Resize (w : Window).

(** Modelled from the spec: the host "invokes once per display refresh" the
    callbacks registered by [requestAnimationFrame]; each registration is
    for one frame, and a callback registered while a frame runs waits for
    the next one.  A resize event runs the listener of the constructor. *)
Definition handle (st : Running) (e : Event) : Running :=
  match e with
  | AnimationFrame =>
      Nat.iter (pending st) render
        {| app := app st; pending := 0; drawn := drawn st |}
  | Resize w =>
      {| app := onResize num_div w (app st); pending := pending st;
         drawn := drawn st |}
  end.

Definition run (events : list Event) (st : Running) : Running :=
  fold_left handle events st.

(** The window of the last resize event, or [w0] when there is none. *)
Definition last_window (w0 : Window) (events : list Event) : Window :=
  fold_left (fun w e => match e with Resize w' => w' | AnimationFrame => w end)
            events w0.

Definition animation_frames (events : list Event) : nat :=
  length (filter (fun e => match e with AnimationFrame => true | _ => false end)
                 events).
End Runtime.

Arguments mkFrame {Number}.
Arguments frame_scene {Number} f.
Arguments frame_camera {Number} f.
Arguments frame_size {Number} f.
Arguments mkRunning {Number}.
Arguments app {Number} r.
Arguments pending {Number} r.
Arguments drawn {Number} r.
Arguments render {Number} controls_update st.
Arguments startup {Number} num_div controls_update w.
Arguments handle {Number} num_div controls_update st e.
Arguments run {Number} num_div controls_update events st.

(** * Properties of colour resolution *)

(** The table is a faithful reading of the statements. *)
Lemma material_color_resolveColor (row col : Z) :
  material_color row col = resolveColor row col.
Proof. reflexivity. Qed.

Lemma targets_spec (row col : Z) (e : Override) :
  targets row col e = true <-> col = ov_col e /\ row = ov_row e.
Proof.
  unfold targets. rewrite andb_true_iff, !Z.eqb_eq. tauto.
Qed.

Lemma targets_ov (row col : Z) (k : RGB) : targets row col (ov col row k) = true.
Proof. apply targets_spec. split; reflexivity. Qed.

Lemma resolveWith_app (t1 t2 : list Override) (base : RGB) (row col : Z) :
  resolveWith (t1 ++ t2) base row col =
  resolveWith t2 (resolveWith t1 base row col) row col.
Proof. unfold resolveWith. apply fold_left_app. Qed.

Lemma resolveWith_cons (e : Override) (t : list Override) (base : RGB)
    (row col : Z) :
  resolveWith (e :: t) base row col =
  resolveWith t (applyOverride row col base e) row col.
Proof. reflexivity. Qed.

(** Statements that do not fire leave the working colour alone. *)
Lemma resolveWith_untargeted (t : list Override) (base : RGB) (row col : Z) :
  (forall e, In e t -> targets row col e = false) ->
  resolveWith t base row col = base.
Proof.
  revert base. induction t as [|e t IH]; intros base Hno.
  - reflexivity.
  - rewrite resolveWith_cons. unfold applyOverride.
    rewrite (Hno e (or_introl eq_refl)).
    apply IH. intros e' He'. apply Hno. right. exact He'.
Qed.

(** A statement that fires fixes the working colour, whatever it was. *)
Lemma resolveWith_targeted_last (t1 t2 : list Override) (e : Override)
    (base : RGB) (row col : Z) :
  targets row col e = true ->
  (forall e', In e' t2 -> targets row col e' = false) ->
  resolveWith (t1 ++ e :: t2) base row col = ov_color e.
Proof.
  intros He Hno.
  rewrite resolveWith_app, resolveWith_cons.
  unfold applyOverride at 1. rewrite He.
  apply resolveWith_untargeted. exact Hno.
Qed.

(** The resolved colour is the base colour or the colour of a statement of
    the table that fires. *)
Lemma resolveWith_cases (t : list Override) (base : RGB) (row col : Z) :
  (resolveWith t base row col = base /\ filter (targets row col) t = []) \/
  (exists e, In e t /\ targets row col e = true /\
             resolveWith t base row col = ov_color e).
Proof.
  revert base. induction t as [|e t IH]; intros base.
  - left. split; reflexivity.
  - rewrite resolveWith_cons.
    destruct (IH (applyOverride row col base e)) as [[Hb Hf]|[e' [Hin [Ht Hc]]]].
    + unfold applyOverride in *. simpl filter.
      destruct (targets row col e) eqn:Ht.
      * right. exists e. split; [left; reflexivity|]. split; assumption.
      * left. split; assumption.
    + right. exists e'. split; [right; exact Hin|]. split; assumption.
Qed.

(** A coordinate that some statement of [t] fires for is the coordinate that
    statement names, so counting per statement counts for every coordinate. *)
Lemma targeted_at_most_once (t : list Override) :
  forallb (fun e => (length (filter (targets (ov_row e) (ov_col e)) t) <=? 1)%nat)
          t = true ->
  forall row col, (length (filter (targets row col) t) <= 1)%nat.
Proof.
  intros Hall row col.
  destruct (filter (targets row col) t) as [|e l] eqn:F.
  - simpl. lia.
  - assert (He : In e (filter (targets row col) t)) by (rewrite F; left; reflexivity).
    apply filter_In in He. destruct He as [Hin Ht].
    apply targets_spec in Ht. destruct Ht as [-> ->].
    rewrite forallb_forall in Hall. specialize (Hall e Hin).
    apply Nat.leb_le in Hall. rewrite F in Hall. exact Hall.
Qed.

(** A group that holds a firing statement contributes one to the table. *)
Lemma groups_le_entries (p : Override -> bool)
    (gs : list (RGB * list Override)) :
  (length (filter (fun g => existsb p (snd g)) gs) <=
   length (filter p (flat_map snd gs)))%nat.
Proof.
  induction gs as [|g gs IH]; simpl.
  - lia.
  - rewrite filter_app, length_app.
    destruct (existsb p (snd g)) eqn:Hex; simpl.
    + apply existsb_exists in Hex. destruct Hex as [e [Hin Hp]].
      assert (Hf : In e (filter p (snd g))) by (apply filter_In; split; assumption).
      destruct (filter p (snd g)); [contradiction|]. simpl. lia.
    + lia.
Qed.

Lemma groupsTargeting_le_entriesTargeting (row col : Z) :
  (length (groupsTargeting row col) <= length (entriesTargeting row col))%nat.
Proof.
  unfold groupsTargeting, entriesTargeting, overrideTable.
  apply groups_le_entries.
Qed.

Lemma entriesTargeting_le_1 (row col : Z) :
  (length (entriesTargeting row col) <= 1)%nat.
Proof.
  unfold entriesTargeting.
  apply targeted_at_most_once. vm_compute. reflexivity.
Qed.

Lemma resolveColor_in_table (row col : Z) :
  In (resolveColor row col) (MATERIAL_PARAM_color :: map ov_color overrideTable).
Proof.
  unfold resolveColor.
  destruct (resolveWith_cases overrideTable MATERIAL_PARAM_color row col)
    as [[Hb _]|[e [Hin [_ Hc]]]].
  - left. symmetry. exact Hb.
  - right. rewrite Hc. apply in_map. exact Hin.
Qed.

(** C1: in a table that holds two statements for one coordinate, of colours
    [A] and then [B], and no later statement for it, the colour resolved for
    that coordinate is [B]: the last-declared statement that fires decides,
    wherever the working colour started and whatever came before. *)
Theorem resolveWith_last_declared_wins
    (t1 t2 t3 : list Override) (base A B : RGB) (row col : Z) :
  (forall e, In e t3 -> targets row col e = false) ->
  resolveWith (t1 ++ ov col row A :: t2 ++ ov col row B :: t3) base row col = B.
Proof.
  intros Hno.
  replace (t1 ++ ov col row A :: t2 ++ ov col row B :: t3)
    with ((t1 ++ ov col row A :: t2) ++ ov col row B :: t3)
    by (rewrite <- app_assoc; reflexivity).
  apply (resolveWith_targeted_last _ t3 (ov col row B)).
  - apply targets_ov.
  - exact Hno.
Qed.

Lemma resolveWith_last_declared_wins_witness :
  resolveWith ([ov 1 1 0x111111] ++ ov 5 1 0x000000 :: [ov 2 2 0x222222] ++
               ov 5 1 0xff5552 :: [ov 3 3 0x333333])
              MATERIAL_PARAM_color 1 5 = 0xff5552.
Proof.
  apply (resolveWith_last_declared_wins
           [ov 1 1 0x111111] [ov 2 2 0x222222] [ov 3 3 0x333333]
           MATERIAL_PARAM_color 0x000000 0xff5552 1 5).
  intros e [<-|[]]. reflexivity.
Defined.

(** C5, as stated, fails: no coordinate of the visited range is named by
    statements of two palette groups, nor by two statements at all. *)
Lemma no_coordinate_in_two_groups :
  ~ (exists row col,
        (1 <= row < 20 /\ 1 <= col < 25) /\
        ((2 <= length (groupsTargeting row col))%nat \/
         (2 <= length (entriesTargeting row col))%nat)).
Proof.
  intros [row [col [_ H]]].
  pose proof (entriesTargeting_le_1 row col) as He.
  pose proof (groupsTargeting_le_entriesTargeting row col) as Hg.
  lia.
Qed.

(** C5, amended: every coordinate is named by at most one statement of the
    table, hence by statements of at most one palette group. *)
Theorem coordinate_targeted_at_most_once (row col : Z) :
  (length (entriesTargeting row col) <= 1)%nat /\
  (length (groupsTargeting row col) <= 1)%nat.
Proof.
  pose proof (entriesTargeting_le_1 row col) as He.
  split; [exact He|].
  pose proof (groupsTargeting_le_entriesTargeting row col) as Hg. lia.
Qed.

(** C6: the colour resolved for row 1, column 5 is black, not the base
    colour, and so is the colour of the cube built there. *)
Theorem resolveColor_1_5_black :
  resolveColor 1 5 = 0x000000 /\
  resolveColor 1 5 <> MATERIAL_PARAM_color /\
  mesh_color (make_box 25 20 1 1 5) = 0x000000.
Proof.
  split; [reflexivity|]. split; [|reflexivity].
  vm_compute. discriminate.
Qed.

(** C7: no statement of the table names row 1, column 1, and the colour
    resolved there is the base colour [0xffffff]. *)
Theorem resolveColor_1_1_base :
  resolveColor 1 1 = MATERIAL_PARAM_color /\
  MATERIAL_PARAM_color = 0xffffff /\
  entriesTargeting 1 1 = [].
Proof. repeat split. Qed.

(** C10: the colour resolved for a coordinate of the visited range is one of
    the seven values of [cubeColors], and each of the seven is the colour of
    some cube of the grid. *)
Theorem resolveColor_palette (row col : Z) :
  1 <= row < 20 -> 1 <= col < 25 ->
  In (resolveColor row col) cubeColors /\
  NoDup cubeColors /\ length cubeColors = 7%nat /\
  (forall k, In k cubeColors ->
     exists r c, (1 <= r < 20 /\ 1 <= c < 25) /\ resolveColor r c = k).
Proof.
  intros _ _. split; [|split; [|split]].
  - assert (Hincl : forallb (fun k => existsb (Z.eqb k) cubeColors)
                      (MATERIAL_PARAM_color :: map ov_color overrideTable) = true)
      by (vm_compute; reflexivity).
    rewrite forallb_forall in Hincl.
    specialize (Hincl _ (resolveColor_in_table row col)).
    apply existsb_exists in Hincl. destruct Hincl as [k [Hk Heq]].
    apply Z.eqb_eq in Heq. rewrite Heq. exact Hk.
  - repeat constructor; simpl; intuition discriminate.
  - reflexivity.
  - intros k Hk. simpl in Hk.
    destruct Hk as [<-|[<-|[<-|[<-|[<-|[<-|[<-|[]]]]]]]].
    + exists 1, 1. split; [lia|reflexivity].
    + exists 1, 5. split; [lia|reflexivity].
    + exists 2, 5. split; [lia|reflexivity].
    + exists 2, 13. split; [lia|reflexivity].
    + exists 5, 5. split; [lia|reflexivity].
    + exists 7, 13. split; [lia|reflexivity].
    + exists 14, 11. split; [lia|reflexivity].
Qed.

Lemma resolveColor_palette_witness :
  (1 <= 1 < 20 /\ 1 <= 5 < 25) /\ In (resolveColor 1 5) cubeColors.
Proof.
  split; [lia|].
  apply (resolveColor_palette 1 5); lia.
Defined.

(** * Properties of the loops and of the grid *)

Lemma range_nil (lo hi : Z) : hi <= lo -> range lo hi = [].
Proof.
  intros H. unfold range.
  replace (Z.to_nat (hi - lo)) with O by lia. reflexivity.
Qed.

Lemma range_cons (lo hi : Z) :
  lo < hi -> range lo hi = lo :: range (lo + 1) hi.
Proof.
  intros H. unfold range.
  replace (Z.to_nat (hi - lo)) with (S (Z.to_nat (hi - (lo + 1)))) by lia.
  rewrite <- cons_seq, <- seq_shift. cbn [map]. rewrite map_map.
  f_equal; [lia|].
  apply map_ext. intros k. lia.
Qed.

Lemma In_range (lo hi i : Z) : In i (range lo hi) <-> lo <= i < hi.
Proof.
  unfold range. rewrite in_map_iff. split.
  - intros [k [<- Hk]]. apply in_seq in Hk. lia.
  - intros H. exists (Z.to_nat (i - lo)). split; [lia|].
    apply in_seq. lia.
Qed.

Lemma length_range (lo hi : Z) : length (range lo hi) = Z.to_nat (hi - lo).
Proof. unfold range. rewrite length_map, length_seq. reflexivity. Qed.

Lemma NoDup_range (lo hi : Z) : NoDup (range lo hi).
Proof.
  remember (Z.to_nat (hi - lo)) as n eqn:Hn.
  revert lo Hn. induction n as [|n IH]; intros lo Hn.
  - rewrite range_nil by lia. constructor.
  - rewrite range_cons by lia. constructor.
    + rewrite In_range. lia.
    + apply IH. lia.
Qed.

(** The loop runs its body once for each value of [range], in order: the
    iterations it is given are exactly the ones its test lets through. *)
Lemma for_fuel_fold {St : Type} (body : Z -> St -> St) (hi : Z) :
  forall (fuel : nat) (i : Z) (s : St),
    (Z.to_nat (hi - i) <= fuel)%nat ->
    for_fuel fuel i hi body s = fold_left (fun s i => body i s) (range i hi) s.
Proof.
  induction fuel as [|fuel IH]; intros i s Hfuel.
  - rewrite range_nil by lia. reflexivity.
  - simpl. destruct (i <? hi) eqn:Hlt.
    + apply Z.ltb_lt in Hlt. rewrite (range_cons i hi Hlt). simpl.
      apply IH. lia.
    + apply Z.ltb_ge in Hlt. rewrite range_nil by lia. reflexivity.
Qed.

Lemma for_loop_fold {St : Type} (lo hi : Z) (body : Z -> St -> St) (s : St) :
  for_loop lo hi body s = fold_left (fun s i => body i s) (range lo hi) s.
Proof. unfold for_loop. apply for_fuel_fold. lia. Qed.

Lemma fold_left_pointwise {A St : Type} (f g : St -> A -> St) (l : list A)
    (s : St) :
  (forall s x, f s x = g s x) -> fold_left f l s = fold_left g l s.
Proof.
  intros Hfg. revert s. induction l as [|x l IH]; intros s; simpl.
  - reflexivity.
  - rewrite Hfg. apply IH.
Qed.

Lemma fold_left_append {A B : Type} (g : A -> list B) (l : list A)
    (s : list B) :
  fold_left (fun s x => s ++ g x) l s = s ++ flat_map g l.
Proof.
  revert s. induction l as [|x l IH]; intros s; simpl.
  - rewrite app_nil_r. reflexivity.
  - rewrite IH, app_assoc. reflexivity.
Qed.

Lemma flat_map_singleton {A B : Type} (f : A -> B) (l : list A) :
  flat_map (fun x => [f x]) l = map f l.
Proof. induction l as [|x l IH]; simpl; [|rewrite IH]; reflexivity. Qed.

Lemma map_flat_map {A B C : Type} (f : B -> C) (g : A -> list B)
    (l : list A) :
  map f (flat_map g l) = flat_map (fun x => map f (g x)) l.
Proof.
  induction l as [|x l IH]; simpl; [|rewrite map_app, IH]; reflexivity.
Qed.

Lemma NoDup_map_one_to_one {A B : Type} (f : A -> B) (l : list A) :
  (forall x y, f x = f y -> x = y) -> NoDup l -> NoDup (map f l).
Proof.
  intros Hinj Hnd. induction Hnd as [|x l Hnotin Hnd IH]; simpl.
  - constructor.
  - constructor; [|exact IH].
    rewrite in_map_iff. intros [y [Hy Hin]].
    apply Hinj in Hy. subst y. contradiction.
Qed.

Section GridFacts.
Variables BOX_ROW BOX_COL : Z.
Variable BOX_SIZE : Q.

(** The scene after the two loops: the cubes of the visited coordinates
    appended, in the order visited. *)
Lemma buildGrid_spec (scene : Scene) :
  buildGrid BOX_ROW BOX_COL BOX_SIZE scene =
  scene ++ map Box (grid_cells BOX_ROW BOX_COL BOX_SIZE).
Proof.
  unfold buildGrid, grid_cells, visited, scene_add.
  rewrite for_loop_fold.
  rewrite (fold_left_pointwise _
             (fun s row =>
                s ++ map (fun col => Box (make_box BOX_ROW BOX_COL BOX_SIZE row col))
                         (range 1 BOX_ROW))).
  - rewrite fold_left_append. f_equal.
    rewrite map_map, map_flat_map.
    apply flat_map_ext. intros row. rewrite map_map. reflexivity.
  - intros s row. rewrite for_loop_fold.
    rewrite (fold_left_append
               (fun col => [Box (make_box BOX_ROW BOX_COL BOX_SIZE row col)])).
    rewrite flat_map_singleton. reflexivity.
Qed.

Lemma In_visited (row col : Z) :
  In (row, col) (visited BOX_ROW BOX_COL) <->
  1 <= row < BOX_COL /\ 1 <= col < BOX_ROW.
Proof.
  unfold visited. rewrite in_flat_map. split.
  - intros [r [Hr Hin]]. apply in_map_iff in Hin.
    destruct Hin as [c [Heq Hc]]. inversion Heq; subst.
    apply In_range in Hr. apply In_range in Hc. split; assumption.
  - intros [Hr Hc]. exists row. split; [apply In_range; exact Hr|].
    apply in_map. apply In_range. exact Hc.
Qed.

Lemma length_visited :
  length (visited BOX_ROW BOX_COL) =
  (Z.to_nat (BOX_COL - 1) * Z.to_nat (BOX_ROW - 1))%nat.
Proof.
  unfold visited. rewrite <- (length_range 1 BOX_COL), <- (length_range 1 BOX_ROW).
  induction (range 1 BOX_COL) as [|r rows IH]; simpl.
  - reflexivity.
  - rewrite length_app, length_map, IH. reflexivity.
Qed.

Lemma NoDup_visited : NoDup (visited BOX_ROW BOX_COL).
Proof.
  unfold visited.
  pose proof (NoDup_range 1 BOX_COL) as Hrows.
  induction Hrows as [|r rows Hnotin Hnd IH]; simpl.
  - constructor.
  - apply NoDup_app.
    + apply NoDup_map_one_to_one; [|apply NoDup_range].
      intros c c' Heq. inversion Heq. reflexivity.
    + exact IH.
    + intros [r' c'] Hin Hin'. apply in_map_iff in Hin.
      destruct Hin as [c [Heq _]]. inversion Heq; subst.
      apply in_flat_map in Hin'. destruct Hin' as [r'' [Hr'' Hin']].
      apply in_map_iff in Hin'. destruct Hin' as [c'' [Heq' _]].
      inversion Heq'; subst. contradiction.
Qed.

Lemma scene_meshes_boxes (ms : list Mesh) : scene_meshes (map Box ms) = ms.
Proof.
  unfold scene_meshes. induction ms as [|m ms IH]; simpl; [|rewrite IH]; reflexivity.
Qed.

Lemma scene_meshes_app (s1 s2 : Scene) :
  scene_meshes (s1 ++ s2) = scene_meshes s1 ++ scene_meshes s2.
Proof. unfold scene_meshes. apply flat_map_app. Qed.

(** Every cube the loops add is the cube of a visited coordinate. *)
Lemma buildGrid_boxes_visited (m : Mesh) :
  In (Box m) (buildGrid BOX_ROW BOX_COL BOX_SIZE []) ->
  exists row col,
    (1 <= row < BOX_COL /\ 1 <= col < BOX_ROW) /\
    m = make_box BOX_ROW BOX_COL BOX_SIZE row col.
Proof.
  rewrite buildGrid_spec. simpl. unfold grid_cells. rewrite map_map.
  intros Hin. apply in_map_iff in Hin. destruct Hin as [[row col] [Heq Hin]].
  exists row, col. split; [apply In_visited; exact Hin|].
  inversion Heq. reflexivity.
Qed.

Lemma scene_meshes_buildGrid (scene : Scene) :
  scene_meshes (buildGrid BOX_ROW BOX_COL BOX_SIZE scene) =
  scene_meshes scene ++ grid_cells BOX_ROW BOX_COL BOX_SIZE.
Proof.
  rewrite buildGrid_spec, scene_meshes_app, scene_meshes_boxes. reflexivity.
Qed.

Lemma scene_meshes_buildGrid_nil :
  scene_meshes (buildGrid BOX_ROW BOX_COL BOX_SIZE []) =
  grid_cells BOX_ROW BOX_COL BOX_SIZE.
Proof. apply scene_meshes_buildGrid. Qed.
End GridFacts.

(** C2: for [R >= 1] rows and [C >= 1] columns (the source's [BOX_COL] and
    [BOX_ROW], in that order) the two loops add one cube for each of
    [(R-1)*(C-1)] pairwise distinct coordinates, and nothing else; with the
    constants of the source, 20 rows and 25 columns, that is 456 cubes. *)
Theorem buildGrid_cell_count (R C : Z) (size : Q) (scene0 : Scene) :
  1 <= R -> 1 <= C ->
  buildGrid C R size scene0 =
    scene0 ++ map (fun rc => Box (make_box C R size (fst rc) (snd rc)))
                  (visited C R) /\
  NoDup (visited C R) /\
  Z.of_nat (length (visited C R)) = (R - 1) * (C - 1) /\
  Z.of_nat (length (scene_meshes (buildGrid C R size []))) = (R - 1) * (C - 1) /\
  length (scene_meshes (buildGrid 25 20 1 [])) = 456%nat.
Proof.
  intros HR HC.
  assert (Hlen : Z.of_nat (length (visited C R)) = (R - 1) * (C - 1))
    by (rewrite length_visited; nia).
  split; [|split; [|split; [|split]]].
  - rewrite buildGrid_spec. unfold grid_cells. rewrite map_map. reflexivity.
  - apply NoDup_visited.
  - exact Hlen.
  - rewrite scene_meshes_buildGrid_nil.
    unfold grid_cells. rewrite length_map. exact Hlen.
  - rewrite scene_meshes_buildGrid_nil.
    unfold grid_cells. rewrite length_map, length_visited. reflexivity.
Qed.

Lemma buildGrid_cell_count_witness :
  (1 <= 20 /\ 1 <= 25) /\
  Z.of_nat (length (scene_meshes (buildGrid 25 20 1 []))) = (20 - 1) * (25 - 1).
Proof.
  split; [lia|].
  apply (buildGrid_cell_count 20 25 1 []); lia.
Defined.

(** C3, as stated, fails: the cube of row 1, column 1 is visited, and with
    the constants of the source neither its [x] nor its [y] is what the
    offsets [-(COLS-1)*S/2] and [-(ROWS-1)*S/2] give. *)
Lemma spec_offsets_miss_cube_1_1 :
  In (1, 1) (visited 25 20) /\
  ~ (vx (mesh_position (make_box 25 20 1 1 1)) ==
     inject_Z 1 * 1 + spec_offsetX 25 1)%Q /\
  ~ (vy (mesh_position (make_box 25 20 1 1 1)) ==
     - inject_Z 1 * 1 - spec_offsetY 20 1)%Q.
Proof.
  split; [apply In_visited; lia|].
  split; intros H; vm_compute in H; discriminate H.
Qed.

(** C3, amended: the cube of a visited cell [(row, col)] is in the scene at
    [x = col*S + offsetX], [y = -row*S - offsetY], [z = 0] with
    [offsetX = -(COLS*S)/2] and [offsetY = -(ROWS*S)/2], and carries the
    colour resolved for the cell. *)
Theorem cube_position (ROWS COLS : Z) (S : Q) (scene0 : Scene)
    (row col : Z) :
  1 <= row < ROWS -> 1 <= col < COLS ->
  exists m,
    In (Box m) (buildGrid COLS ROWS S scene0) /\
    mesh_color m = resolveColor row col /\
    (vx (mesh_position m) == inject_Z col * S + - (inject_Z COLS * S) / 2)%Q /\
    (vy (mesh_position m) == - inject_Z row * S - - (inject_Z ROWS * S) / 2)%Q /\
    (vz (mesh_position m) == 0)%Q.
Proof.
  intros Hrow Hcol. exists (make_box COLS ROWS S row col).
  split; [|split; [|split; [|split]]].
  - rewrite buildGrid_spec. apply in_or_app. right. apply in_map.
    unfold grid_cells.
    apply (in_map (fun rc => make_box COLS ROWS S (fst rc) (snd rc))
                  (visited COLS ROWS) (row, col)).
    apply In_visited. split; assumption.
  - apply material_color_resolveColor.
  - reflexivity.
  - reflexivity.
  - reflexivity.
Qed.

Lemma cube_position_witness :
  (1 <= 1 < 20 /\ 1 <= 1 < 25) /\
  exists m,
    In (Box m) (buildGrid 25 20 1 []) /\
    (vx (mesh_position m) == - (23 # 2))%Q /\
    (vy (mesh_position m) == 9)%Q.
Proof.
  split; [lia|].
  destruct (cube_position 20 25 1 [] 1 1) as [m [Hin [_ [Hx [Hy _]]]]];
    [lia|lia|].
  exists m. split; [exact Hin|].
  split.
  - rewrite Hx. reflexivity.
  - rewrite Hy. reflexivity.
Defined.

(** C4: with the constants of the source the grid build produces 456
    cubes, the mean of their [x] positions exists and is 0, and so does and
    is the mean of their [y] positions. *)
Theorem grid_centered :
  length (scene_meshes (buildGrid 25 20 1 [])) = 456%nat /\
  (exists mx,
     Qmean (map (fun m => vx (mesh_position m))
                (scene_meshes (buildGrid 25 20 1 []))) = Some mx /\
     (mx == 0)%Q) /\
  (exists my,
     Qmean (map (fun m => vy (mesh_position m))
                (scene_meshes (buildGrid 25 20 1 []))) = Some my /\
     (my == 0)%Q).
Proof.
  rewrite scene_meshes_buildGrid_nil.
  split; [|split].
  - unfold grid_cells. rewrite length_map, length_visited. reflexivity.
  - eexists. split; [vm_compute; reflexivity|]. vm_compute. reflexivity.
  - eexists. split; [vm_compute; reflexivity|]. vm_compute. reflexivity.
Qed.

(** * Properties of the application object *)

(** C8: when the window changes to [w] by [h], the listener sets the size of
    the renderer to [(w, h)] and the aspect of the camera to the quotient of
    [w] by [h], and changes nothing else: the scene, hence every cube with
    its position and colour, and the other parameters of renderer and camera
    are as before. *)
Theorem onResize_frame {Number : Type} (num_div : Z -> Z -> Number)
    (app : App3 Number) (w h : Z) :
  renderer_size (renderer (onResize num_div (mkWindow w h) app)) = (w, h) /\
  aspect (camera (onResize num_div (mkWindow w h) app)) = num_div w h /\
  projection_aspect (camera (onResize num_div (mkWindow w h) app)) = num_div w h /\
  scene (onResize num_div (mkWindow w h) app) = scene app /\
  scene_meshes (scene (onResize num_div (mkWindow w h) app)) =
    scene_meshes (scene app) /\
  clearColor (renderer (onResize num_div (mkWindow w h) app)) =
    clearColor (renderer app) /\
  fovy (camera (onResize num_div (mkWindow w h) app)) = fovy (camera app) /\
  near (camera (onResize num_div (mkWindow w h) app)) = near (camera app) /\
  far (camera (onResize num_div (mkWindow w h) app)) = far (camera app) /\
  camera_position (camera (onResize num_div (mkWindow w h) app)) =
    camera_position (camera app) /\
  lookAt (camera (onResize num_div (mkWindow w h) app)) = lookAt (camera app).
Proof. repeat split. Qed.

(** The scenario of the specification: an application initialised in a
    window of 800 by 600 that is resized to 1024 by 768. *)
Lemma onResize_800x600_to_1024x768 {Number : Type}
    (num_div : Z -> Z -> Number) :
  let app := init num_div (mkWindow 800 600) in
  let app' := onResize num_div (mkWindow 1024 768) app in
  renderer_size (renderer app) = (800, 600) /\
  aspect (camera app) = num_div 800 600 /\
  renderer_size (renderer app') = (1024, 768) /\
  aspect (camera app') = num_div 1024 768 /\
  scene app' = scene app /\
  length (scene_meshes (scene app')) = 456%nat.
Proof.
  cbv zeta. repeat split.
Qed.

(** Resizing twice to the same window is resizing once. *)
Lemma onResize_idempotent {Number : Type} (num_div : Z -> Z -> Number)
    (app : App3 Number) (w : Window) :
  onResize num_div w (onResize num_div w app) = onResize num_div w app.
Proof. reflexivity. Qed.

(** * Further properties of colour resolution *)

Lemma last_cons_default {A : Type} (a d : A) (l : list A) :
  last (a :: l) d = last l a.
Proof.
  revert a d. induction l as [|b l IH]; intros a d.
  - reflexivity.
  - change (last (a :: b :: l) d) with (last (b :: l) d).
    rewrite (IH b d), (IH b a). reflexivity.
Qed.

(** The resolved colour is the colour of the last statement that fires, or
    the base colour when none does. *)
Lemma resolveWith_last_firing (t : list Override) (base : RGB) (row col : Z) :
  resolveWith t base row col =
  last (map ov_color (filter (targets row col) t)) base.
Proof.
  revert base. induction t as [|e t IH]; intros base.
  - reflexivity.
  - rewrite resolveWith_cons, IH. unfold applyOverride. simpl filter.
    destruct (targets row col e).
    + simpl map. rewrite last_cons_default. reflexivity.
    + reflexivity.
Qed.

Lemma Permutation_filter_same {A : Type} (p : A -> bool) (l l' : list A) :
  Permutation l l' -> Permutation (filter p l) (filter p l').
Proof.
  intros H. induction H as [|x l l' H IH|x y l|l l' l'' H1 IH1 H2 IH2]; simpl.
  - constructor.
  - destruct (p x); [constructor|]; exact IH.
  - destruct (p x), (p y); try apply Permutation_refl. apply perm_swap.
  - eapply Permutation_trans; eassumption.
Qed.

Lemma find_hd_filter {A : Type} (p : A -> bool) (l : list A) :
  find p l = hd_error (filter p l).
Proof.
  induction l as [|x l IH]; simpl; [reflexivity|].
  destruct (p x); [reflexivity|exact IH].
Qed.

Lemma filter_targets_overrideTable_le_1 (row col : Z) :
  (length (filter (targets row col) overrideTable) <= 1)%nat.
Proof. apply targeted_at_most_once. vm_compute. reflexivity. Qed.

(** In a table that names a coordinate at most once, order does not matter,
    the first firing statement is the last, and each statement that names
    the coordinate decides its colour. *)
Lemma resolveWith_permutation (t t' : list Override) (base : RGB)
    (row col : Z) :
  (length (filter (targets row col) t) <= 1)%nat ->
  Permutation t t' ->
  resolveWith t' base row col = resolveWith t base row col.
Proof.
  intros Hle Hperm. rewrite !resolveWith_last_firing.
  pose proof (Permutation_filter_same (targets row col) _ _ Hperm) as Hf.
  destruct (filter (targets row col) t) as [|e [|e' l]].
  - apply Permutation_nil in Hf. rewrite Hf. reflexivity.
  - apply Permutation_length_1_inv in Hf. rewrite Hf. reflexivity.
  - simpl in Hle. lia.
Qed.

Lemma resolveWith_find (t : list Override) (base : RGB) (row col : Z) :
  (length (filter (targets row col) t) <= 1)%nat ->
  resolveWith t base row col =
  match find (targets row col) t with
  | Some e => ov_color e
  | None => base
  end.
Proof.
  intros Hle. rewrite resolveWith_last_firing, find_hd_filter.
  destruct (filter (targets row col) t) as [|e [|e' l]].
  - reflexivity.
  - reflexivity.
  - simpl in Hle. lia.
Qed.

Lemma resolveWith_named (t : list Override) (base : RGB) (e : Override) :
  (length (filter (targets (ov_row e) (ov_col e)) t) <= 1)%nat ->
  In e t ->
  resolveWith t base (ov_row e) (ov_col e) = ov_color e.
Proof.
  intros Hle Hin. rewrite resolveWith_last_firing.
  assert (Hf : In e (filter (targets (ov_row e) (ov_col e)) t)).
  { apply filter_In. split; [exact Hin|].
    apply targets_spec. split; reflexivity. }
  destruct (filter (targets (ov_row e) (ov_col e)) t) as [|e1 [|e2 l]].
  - contradiction.
  - destruct Hf as [->|[]]. reflexivity.
  - simpl in Hle. lia.
Qed.

Lemma overrideTable_in_range (e : Override) :
  In e overrideTable -> 1 <= ov_row e < 20 /\ 1 <= ov_col e < 25.
Proof.
  intros Hin.
  assert (Hall : forallb (fun e => (1 <=? ov_row e) && (ov_row e <? 20) &&
                                   (1 <=? ov_col e) && (ov_col e <? 25))
                         overrideTable = true) by (vm_compute; reflexivity).
  rewrite forallb_forall in Hall. specialize (Hall e Hin).
  rewrite !andb_true_iff in Hall.
  destruct Hall as [[[H1 H2] H3] H4].
  apply Z.leb_le in H1, H3. apply Z.ltb_lt in H2, H4. lia.
Qed.

(** X1: the statements of the source can be run in any order: every
    rearrangement of the table resolves every coordinate to the same colour
    as the source does. *)
Theorem resolveColor_order_irrelevant (t' : list Override) (row col : Z) :
  Permutation overrideTable t' ->
  resolveWith t' MATERIAL_PARAM_color row col = resolveColor row col.
Proof.
  intros Hperm. unfold resolveColor.
  apply resolveWith_permutation;
    [apply filter_targets_overrideTable_le_1 | exact Hperm].
Qed.

Lemma resolveColor_order_irrelevant_witness :
  resolveWith (rev overrideTable) MATERIAL_PARAM_color 7 13 = resolveColor 7 13.
Proof.
  apply (resolveColor_order_irrelevant (rev overrideTable) 7 13).
  apply Permutation_rev.
Defined.

(** X2: a search that stops at the first statement naming the coordinate finds
    the colour that the full sequence of statements leaves. *)
Theorem resolveColor_first_match (row col : Z) :
  resolveColor row col =
  match find (targets row col) overrideTable with
  | Some e => ov_color e
  | None => MATERIAL_PARAM_color
  end.
Proof.
  unfold resolveColor.
  apply resolveWith_find. apply filter_targets_overrideTable_le_1.
Qed.

(** X3: every statement of the source names a cell of the visited range and
    decides the colour of the cube built there: none is dead, none is
    overwritten by a later one. *)
Theorem override_statement_effective (e : Override) :
  In e overrideTable ->
  (1 <= ov_row e < 20 /\ 1 <= ov_col e < 25) /\
  In (ov_row e, ov_col e) (visited 25 20) /\
  mesh_color (make_box 25 20 1 (ov_row e) (ov_col e)) = ov_color e.
Proof.
  intros Hin.
  pose proof (overrideTable_in_range e Hin) as Hrange.
  split; [exact Hrange|]. split; [apply In_visited; tauto|].
  change (mesh_color (make_box 25 20 1 (ov_row e) (ov_col e)))
    with (material_color (ov_row e) (ov_col e)).
  rewrite material_color_resolveColor. unfold resolveColor.
  apply resolveWith_named;
    [apply filter_targets_overrideTable_le_1 | exact Hin].
Qed.

Lemma override_statement_effective_witness :
  mesh_color (make_box 25 20 1 15 11) = 0xff5552.
Proof.
  apply (override_statement_effective (ov 11 15 0xff5552)).
  vm_compute. tauto.
Defined.

(** * Further properties of the grid layout *)

Lemma inject_Z_sub (a b : Z) : (inject_Z (a - b) == inject_Z a - inject_Z b)%Q.
Proof.
  unfold Z.sub. rewrite inject_Z_plus, inject_Z_opp. reflexivity.
Qed.

Lemma make_box_x (COLS ROWS : Z) (S : Q) (row col : Z) :
  (vx (mesh_position (make_box COLS ROWS S row col)) ==
   inject_Z col * S - inject_Z COLS * S / 2)%Q.
Proof.
  unfold make_box, offsetX, gridWidth. simpl. field.
Qed.

Lemma make_box_y (COLS ROWS : Z) (S : Q) (row col : Z) :
  (vy (mesh_position (make_box COLS ROWS S row col)) ==
   inject_Z ROWS * S / 2 - inject_Z row * S)%Q.
Proof.
  unfold make_box, offsetY, gridHeight. simpl. field.
Qed.

(** X4: with the constants of the source the grid is symmetric about the
    origin: with the cube of a visited cell [(row, col)] the loops also
    build the cube of [(20-row, 25-col)], and that cube sits at the opposite
    position. *)
Theorem cube_point_symmetry (row col : Z) :
  1 <= row < 20 -> 1 <= col < 25 ->
  In (20 - row, 25 - col) (visited 25 20) /\
  In (Box (make_box 25 20 1 (20 - row) (25 - col))) (buildGrid 25 20 1 []) /\
  (vx (mesh_position (make_box 25 20 1 (20 - row) (25 - col))) ==
   - vx (mesh_position (make_box 25 20 1 row col)))%Q /\
  (vy (mesh_position (make_box 25 20 1 (20 - row) (25 - col))) ==
   - vy (mesh_position (make_box 25 20 1 row col)))%Q.
Proof.
  intros Hrow Hcol.
  assert (Hv : In (20 - row, 25 - col) (visited 25 20))
    by (apply In_visited; lia).
  split; [exact Hv|]. split.
  - rewrite buildGrid_spec. apply in_or_app. right. apply in_map.
    unfold grid_cells.
    exact (in_map (fun rc => make_box 25 20 1 (fst rc) (snd rc))
                  (visited 25 20) (20 - row, 25 - col) Hv).
  - rewrite !make_box_x, !make_box_y, !inject_Z_sub.
    split; field.
Qed.

Lemma cube_point_symmetry_witness :
  (1 <= 1 < 20 /\ 1 <= 5 < 25) /\
  In (20 - 1, 25 - 5) (visited 25 20).
Proof.
  split; [lia|].
  destruct (cube_point_symmetry 1 5) as [H _]; [lia|lia|exact H].
Defined.

Lemma inject_Z_bounds (lo hi i : Z) :
  lo <= i < hi -> (inject_Z lo <= inject_Z i <= inject_Z (hi - 1))%Q.
Proof.
  intros H. rewrite <- !Zle_Qle. lia.
Qed.

(** X6: with the constants of the source no two cubes of the grid share a
    position: visited cells whose cubes have the same [x] and the same [y]
    are the same cell. *)
Theorem cube_positions_distinct (row col row' col' : Z) :
  1 <= row < 20 -> 1 <= col < 25 -> 1 <= row' < 20 -> 1 <= col' < 25 ->
  (vx (mesh_position (make_box 25 20 1 row col)) ==
   vx (mesh_position (make_box 25 20 1 row' col')))%Q ->
  (vy (mesh_position (make_box 25 20 1 row col)) ==
   vy (mesh_position (make_box 25 20 1 row' col')))%Q ->
  row = row' /\ col = col'.
Proof.
  intros _ _ _ _ Hx Hy.
  rewrite !make_box_x in Hx. rewrite !make_box_y in Hy. split.
  - apply inject_Z_injective. lra.
  - apply inject_Z_injective. lra.
Qed.

Lemma cube_positions_distinct_witness : 3 = 3 /\ 7 = 7.
Proof.
  apply (cube_positions_distinct 3 7 3 7); try lia; reflexivity.
Defined.

(** X7: with the constants of the source every cube of the grid lies in the
    plane [z = 0], within 11.5 of the origin along [x] and within 9 along
    [y]. *)
Theorem cube_within_extent (row col : Z) :
  1 <= row < 20 -> 1 <= col < 25 ->
  (- (23 # 2) <= vx (mesh_position (make_box 25 20 1 row col)) <= 23 # 2)%Q /\
  (- 9 <= vy (mesh_position (make_box 25 20 1 row col)) <= 9)%Q /\
  (vz (mesh_position (make_box 25 20 1 row col)) == 0)%Q.
Proof.
  intros Hrow Hcol.
  pose proof (inject_Z_bounds 1 20 row Hrow) as Hr.
  pose proof (inject_Z_bounds 1 25 col Hcol) as Hc.
  rewrite make_box_x, make_box_y.
  change (inject_Z (20 - 1)) with 19%Q in Hr.
  change (inject_Z (25 - 1)) with 24%Q in Hc.
  change (inject_Z 1) with 1%Q in *.
  change (inject_Z 25) with 25%Q. change (inject_Z 20) with 20%Q.
  unfold Qdiv. change (/ 2)%Q with (1 # 2)%Q.
  split; [|split]; [split; lra | split; lra | reflexivity].
Qed.

Lemma cube_within_extent_witness :
  (1 <= 19 < 20 /\ 1 <= 24 < 25) /\
  (vx (mesh_position (make_box 25 20 1 19 24)) <= 23 # 2)%Q.
Proof.
  split; [lia|].
  destruct (cube_within_extent 19 24) as [[_ H] _]; [lia|lia|exact H].
Defined.

Lemma nth_error_range (lo hi : Z) (i : nat) :
  (i < Z.to_nat (hi - lo))%nat ->
  nth_error (range lo hi) i = Some (lo + Z.of_nat i).
Proof.
  revert lo. induction i as [|i IH]; intros lo Hi.
  - rewrite range_cons by lia. simpl. f_equal. lia.
  - rewrite range_cons by lia. simpl. rewrite IH by lia. f_equal. lia.
Qed.

(** In a list made of blocks of one length [m], element [j] of block [i]
    is at index [i*m + j]. *)
Lemma nth_error_flat_map_blocks {A B : Type} (g : A -> list B) (m : nat)
    (l : list A) :
  (forall x, length (g x) = m) ->
  forall i j x, (j < m)%nat -> nth_error l i = Some x ->
  nth_error (flat_map g l) (i * m + j) = nth_error (g x) j.
Proof.
  intros Hlen. induction l as [|y l IH]; intros i j x Hj Hi.
  - destruct i; discriminate Hi.
  - simpl flat_map. destruct i as [|i].
    + simpl in Hi. injection Hi as ->. simpl.
      apply nth_error_app1. rewrite Hlen. exact Hj.
    + simpl in Hi. rewrite nth_error_app2 by (rewrite Hlen; simpl; lia).
      rewrite Hlen.
      replace (S i * m + j - m)%nat with (i * m + j)%nat by (simpl; lia).
      apply IH; assumption.
Qed.

Lemma nth_error_visited (BOX_ROW BOX_COL : Z) (i j : nat) :
  (i < Z.to_nat (BOX_COL - 1))%nat -> (j < Z.to_nat (BOX_ROW - 1))%nat ->
  nth_error (visited BOX_ROW BOX_COL) (i * Z.to_nat (BOX_ROW - 1) + j) =
  Some (1 + Z.of_nat i, 1 + Z.of_nat j).
Proof.
  intros Hi Hj. unfold visited.
  rewrite (nth_error_flat_map_blocks
             (fun row => map (fun col => (row, col)) (range 1 BOX_ROW))
             (Z.to_nat (BOX_ROW - 1)) (range 1 BOX_COL)
             (fun row => eq_trans (length_map _ _) (length_range 1 BOX_ROW))
             i j (1 + Z.of_nat i) Hj (nth_error_range 1 BOX_COL i Hi)).
  rewrite nth_error_map, (nth_error_range 1 BOX_ROW j Hj). reflexivity.
Qed.

(** X8: the cubes are added row by row, and within a row column by column: after
    the children the scene already had, the cube of the [i]-th row and
    [j]-th column (counted from 0) is at index [i * (COLS-1) + j]. *)
Theorem buildGrid_row_major (ROWS COLS : Z) (S : Q) (scene0 : Scene)
    (i j : nat) :
  (i < Z.to_nat (ROWS - 1))%nat -> (j < Z.to_nat (COLS - 1))%nat ->
  nth_error (buildGrid COLS ROWS S scene0)
            (length scene0 + (i * Z.to_nat (COLS - 1) + j)) =
  Some (Box (make_box COLS ROWS S (1 + Z.of_nat i) (1 + Z.of_nat j))).
Proof.
  intros Hi Hj.
  rewrite buildGrid_spec, nth_error_app2 by apply Nat.le_add_r.
  rewrite Nat.add_comm, Nat.add_sub.
  unfold grid_cells. rewrite !nth_error_map.
  rewrite (nth_error_visited COLS ROWS i j Hi Hj). reflexivity.
Qed.

Lemma buildGrid_row_major_witness :
  nth_error (buildGrid 25 20 1 []) (0 + (0 * Z.to_nat (25 - 1) + 4)) =
  Some (Box (make_box 25 20 1 (1 + Z.of_nat 0) (1 + Z.of_nat 4))).
Proof.
  apply (buildGrid_row_major 20 25 1 [] 0 4); simpl; lia.
Defined.

(** * Properties of the running application *)

Section RuntimeFacts.
Variable Number : Type.
Variable num_div : Z -> Z -> Number.
Variable controls_update : Camera Number -> Camera Number.

Lemma render_pending (st : Running Number) :
  pending (render controls_update st) = S (pending st).
Proof. reflexivity. Qed.

Lemma render_scene (st : Running Number) :
  scene (app (render controls_update st)) = scene (app st).
Proof. reflexivity. Qed.

Lemma render_renderer (st : Running Number) :
  renderer (app (render controls_update st)) = renderer (app st).
Proof. reflexivity. Qed.

Lemma render_camera (st : Running Number) :
  camera (app (render controls_update st)) = controls_update (camera (app st)).
Proof. reflexivity. Qed.

Lemma render_drawn (st : Running Number) :
  drawn (render controls_update st) =
  drawn st ++ [ {| frame_scene := scene (app st);
                   frame_camera := controls_update (camera (app st));
                   frame_size := renderer_size (renderer (app st)) |} ].
Proof. reflexivity. Qed.

Lemma run_snoc (events : list Event) (e : Event) (st : Running Number) :
  run num_div controls_update (events ++ [e]) st =
  handle num_div controls_update (run num_div controls_update events st) e.
Proof. unfold run. rewrite fold_left_app. reflexivity. Qed.

Lemma last_window_snoc (w0 : Window) (events : list Event) (e : Event) :
  last_window w0 (events ++ [e]) =
  match e with
  | Resize w => w
  | AnimationFrame => last_window w0 events
  end.
Proof. unfold last_window. rewrite fold_left_app. reflexivity. Qed.

Lemma animation_frames_snoc (events : list Event) (e : Event) :
  animation_frames (events ++ [e]) =
  match e with
  | AnimationFrame => S (animation_frames events)
  | Resize _ => animation_frames events
  end.
Proof.
  unfold animation_frames. rewrite filter_app, length_app.
  destruct e; simpl; lia.
Qed.

(** What holds after start-up and any sequence of events. *)
Lemma run_startup_state (w0 : Window) (events : list Event) :
  pending (run num_div controls_update events
               (startup num_div controls_update w0)) = 1%nat /\
  scene (app (run num_div controls_update events
                  (startup num_div controls_update w0))) =
    scene (init num_div w0) /\
  renderer_size (renderer (app (run num_div controls_update events
                                    (startup num_div controls_update w0)))) =
    (innerWidth (last_window w0 events), innerHeight (last_window w0 events)) /\
  length (drawn (run num_div controls_update events
                     (startup num_div controls_update w0))) =
    S (animation_frames events) /\
  Forall (fun f => frame_scene f = scene (init num_div w0))
         (drawn (run num_div controls_update events
                     (startup num_div controls_update w0))).
Proof.
  induction events as [|e events IH] using rev_ind.
  - unfold run, startup. cbn [fold_left].
    rewrite render_pending, render_scene, render_renderer, render_drawn.
    cbn [pending app drawn app_nil_l].
    repeat split.
    constructor; [reflexivity|constructor].
  - rewrite run_snoc, last_window_snoc, animation_frames_snoc.
    destruct IH as [Hp [Hs [Hr [Hl Hf]]]].
    destruct e as [|w]; unfold handle.
    + rewrite Hp. cbn [Nat.iter nat_rect].
      rewrite render_pending, render_scene, render_renderer, render_drawn.
      cbn [pending app drawn].
      split; [reflexivity|]. split; [exact Hs|]. split; [exact Hr|].
      split; [rewrite length_app, Hl; simpl; lia|].
      apply Forall_app. split; [exact Hf|].
      constructor; [exact Hs|constructor].
    + cbn [pending app drawn].
      split; [exact Hp|]. split; [exact Hs|]. split; [reflexivity|].
      split; [exact Hl|exact Hf].
Qed.

(** The same, for what the camera keeps, when the controls leave the aspect
    ratio and the projection alone. *)
Lemma run_startup_camera (w0 : Window) (events : list Event) :
  (forall c, aspect (controls_update c) = aspect c /\
             projection_aspect (controls_update c) = projection_aspect c) ->
  aspect (camera (app (run num_div controls_update events
                           (startup num_div controls_update w0)))) =
    num_div (innerWidth (last_window w0 events))
            (innerHeight (last_window w0 events)) /\
  projection_aspect (camera (app (run num_div controls_update events
                                      (startup num_div controls_update w0)))) =
    num_div (innerWidth (last_window w0 events))
            (innerHeight (last_window w0 events)) /\
  Forall (fun f => projection_aspect (frame_camera f) =
                   num_div (fst (frame_size f)) (snd (frame_size f)))
         (drawn (run num_div controls_update events
                     (startup num_div controls_update w0))).
Proof.
  intros Hctl.
  induction events as [|e events IH] using rev_ind.
  - unfold run, startup. cbn [fold_left].
    rewrite render_camera, render_drawn. cbn [pending app drawn app_nil_l].
    destruct (Hctl (camera (init num_div w0))) as [Ha Hp].
    rewrite Ha, Hp. repeat split.
    constructor; [|constructor]. cbn [frame_camera frame_size].
    rewrite Hp. reflexivity.
  - pose proof (run_startup_state w0 events) as [Hpend [_ [Hsize _]]].
    rewrite run_snoc, last_window_snoc.
    destruct IH as [Hasp [Hproj Hf]].
    destruct e as [|w]; unfold handle.
    + rewrite Hpend. cbn [Nat.iter nat_rect].
      rewrite render_camera, render_drawn. cbn [pending app drawn].
      destruct (Hctl (camera (app (run num_div controls_update events
                                       (startup num_div controls_update w0)))))
        as [Ha Hp].
      rewrite Ha, Hp. split; [exact Hasp|]. split; [exact Hproj|].
      apply Forall_app. split; [exact Hf|].
      constructor; [|constructor]. cbn [frame_camera frame_size].
      rewrite Hp, Hproj, Hsize. reflexivity.
    + cbn [pending app drawn]. repeat split. exact Hf.
Qed.
End RuntimeFacts.

Lemma init_scene {Number : Type} (num_div : Z -> Z -> Number) (w : Window) :
  scene (init num_div w) =
  [ DirectionalLight 0xffffff 1 (vec3 1 1 1); AmbientLight 0xffffff (2 # 10) ]
    ++ map Box (grid_cells 25 20 1).
Proof. unfold init. cbn [scene]. apply buildGrid_spec. Qed.

(** X10: after start-up, whatever the window was, whatever events arrive and
    whatever the controls do to the camera, the scene is the one [init]
    built, the two lights followed by the cubes of the grid, and every frame
    that was drawn shows exactly that scene. *)
Theorem scene_fixed_after_init {Number : Type} (num_div : Z -> Z -> Number)
    (controls_update : Camera Number -> Camera Number)
    (w0 : Window) (events : list Event) :
  scene (app (run num_div controls_update events
                  (startup num_div controls_update w0))) =
    [ DirectionalLight 0xffffff 1 (vec3 1 1 1); AmbientLight 0xffffff (2 # 10) ]
      ++ map Box (grid_cells 25 20 1) /\
  Forall (fun f => frame_scene f =
            [ DirectionalLight 0xffffff 1 (vec3 1 1 1);
              AmbientLight 0xffffff (2 # 10) ]
              ++ map Box (grid_cells 25 20 1))
         (drawn (run num_div controls_update events
                     (startup num_div controls_update w0))).
Proof.
  pose proof (run_startup_state Number num_div controls_update w0 events)
    as [_ [Hs [_ [_ Hf]]]].
  rewrite <- (init_scene num_div w0). split; [exact Hs|exact Hf].
Qed.

(** X11: the render loop keeps itself alive and never multiplies: after start-up
    and any sequence of events exactly one callback is waiting for the next
    animation frame, and the frames drawn so far are the one of start-up and
    one for each animation frame delivered; resize events draw nothing. *)
Theorem render_loop_one_callback {Number : Type} (num_div : Z -> Z -> Number)
    (controls_update : Camera Number -> Camera Number)
    (w0 : Window) (events : list Event) :
  pending (run num_div controls_update events
               (startup num_div controls_update w0)) = 1%nat /\
  length (drawn (run num_div controls_update events
                     (startup num_div controls_update w0))) =
    S (animation_frames events).
Proof.
  pose proof (run_startup_state Number num_div controls_update w0 events)
    as [Hp [_ [_ [Hl _]]]].
  split; [exact Hp|exact Hl].
Qed.

(** X12: the renderer always has the size of the window at the last resize event,
    or of the window at start-up when there was none; animation frames do
    not change it. *)
Theorem renderer_size_follows_window {Number : Type}
    (num_div : Z -> Z -> Number)
    (controls_update : Camera Number -> Camera Number)
    (w0 : Window) (events : list Event) :
  renderer_size (renderer (app (run num_div controls_update events
                                    (startup num_div controls_update w0)))) =
  (innerWidth (last_window w0 events), innerHeight (last_window w0 events)).
Proof.
  pose proof (run_startup_state Number num_div controls_update w0 events)
    as [_ [_ [Hr _]]].
  exact Hr.
Qed.

(** X13: when the controls leave the aspect ratio and the projection of the
    camera alone, the camera's aspect is always the quotient of the current
    renderer width by its height, the projection is up to date with it, and
    no frame was ever drawn with a projection computed for another size. *)
Theorem projection_matches_renderer {Number : Type}
    (num_div : Z -> Z -> Number)
    (controls_update : Camera Number -> Camera Number)
    (w0 : Window) (events : list Event) :
  (forall c, aspect (controls_update c) = aspect c /\
             projection_aspect (controls_update c) = projection_aspect c) ->
  aspect (camera (app (run num_div controls_update events
                           (startup num_div controls_update w0)))) =
    num_div (innerWidth (last_window w0 events))
            (innerHeight (last_window w0 events)) /\
  projection_aspect (camera (app (run num_div controls_update events
                                      (startup num_div controls_update w0)))) =
    aspect (camera (app (run num_div controls_update events
                             (startup num_div controls_update w0)))) /\
  Forall (fun f => projection_aspect (frame_camera f) =
                   num_div (fst (frame_size f)) (snd (frame_size f)))
         (drawn (run num_div controls_update events
                     (startup num_div controls_update w0))).
Proof.
  intros Hctl.
  pose proof (run_startup_camera Number num_div controls_update w0 events Hctl)
    as [Ha [Hp Hf]].
  split; [exact Ha|]. split; [rewrite Ha; exact Hp|exact Hf].
Qed.

Lemma projection_matches_renderer_witness :
  aspect (camera (app (run (fun w h => (w, h))
                           (fun c => set_aspect (aspect c) c)
                           [AnimationFrame; Resize (mkWindow 1024 768);
                            AnimationFrame]
                           (startup (fun w h => (w, h))
                                    (fun c => set_aspect (aspect c) c)
                                    (mkWindow 800 600))))) =
  (1024, 768).
Proof.
  apply (projection_matches_renderer (fun w h => (w, h))
           (fun c => set_aspect (aspect c) c) (mkWindow 800 600)
           [AnimationFrame; Resize (mkWindow 1024 768); AnimationFrame]).
  intros c. split; reflexivity.
Defined.
